(** * Kettle: the appliance state machine of [kettle.py]

    A shallow embedding of the class [Kettle], of its four public
    methods [fill_in], [pour_out], [switch] and [check_condition], and
    of the control loop [main].

    The code is embedded twice.  In the first embedding a Python
    [float] is an exact rational of [Q]: comparisons and assignments are
    those of the code on numbers, arithmetic does not round, and there
    is no NaN and no infinity; the laws of arithmetic are at hand, and
    every concrete number used with it is a binary64 value on which the
    arithmetic performed is exact.  In the second, the module
    [Binary64], a [float] is a primitive binary64 float, with NaN and
    rounding as in Python; what depends on either is stated there.

    Conventions of both embeddings.
    - The object [self] is the record [Kettle]; a method is a
      computation of the monad [M], which threads [self] and can raise.
      A raised exception carries the object as it is at that point, so
      that what a failed call has already written remains visible.
    - [time.time()] is an argument [now] of the methods that read the
      clock.  Nothing is assumed about successive readings.
    - The attribute [start_time] does not exist before the first
      [_start]; it is an [option], and reading it when absent raises
      [AttributeError].
    - The module [settings] is not part of the sources; the five values
      [__init__] reads from it are the record [Config]. *)

From Stdlib Require Import QArith Lqa Lia Bool List String.
From Stdlib Require Import PrimFloat.
Import ListNotations.
Open Scope Q_scope.

(** ** Data *)

Inductive KettleStatus : Set := ON | OFF | READY | STOPPED.

(** [==] on the members of the enumeration. *)
Definition KettleStatus_eqb (a b : KettleStatus) : bool :=
  match a, b with
  | ON, ON | OFF, OFF | READY, READY | STOPPED, STOPPED => true
  | _, _ => false
  end.

Module KettleCondition.
Record t : Set := mk { status : KettleStatus; temperature : Q }.
End KettleCondition.

Inductive exn : Set :=
| KettleFillingError (msg : string)
| KettleSwitchError (msg : string)
| KettlePouringError (msg : string)
| AttributeError (name : string)
| ZeroDivisionError.

(** The values of [config["DEFAULT"]] after [float(...)]. *)
Record Config : Set := mkConfig {
  MIN_VOLUME : Q;
  MAX_VOLUME : Q;
  START_TEMPERATURE : Q;
  MAX_TEMPERATURE : Q;
  BOILING_TIME_SECONDS : Q
}.

Record Kettle : Set := mkKettle {
  volume : Q;
  min_volume : Q;
  max_volume : Q;
  start_temperature : Q;
  max_temperature : Q;
  temperature : Q;
  boiling_time : Q;
  status : KettleStatus;
  start_time : option Q
}.

(** Attribute assignments [self.x = v]. *)
Definition set_volume (v : Q) (k : Kettle) : Kettle :=
  mkKettle v (min_volume k) (max_volume k) (start_temperature k)
           (max_temperature k) (temperature k) (boiling_time k)
           (status k) (start_time k).

Definition set_temperature (t : Q) (k : Kettle) : Kettle :=
  mkKettle (volume k) (min_volume k) (max_volume k) (start_temperature k)
           (max_temperature k) t (boiling_time k)
           (status k) (start_time k).

Definition set_status (s : KettleStatus) (k : Kettle) : Kettle :=
  mkKettle (volume k) (min_volume k) (max_volume k) (start_temperature k)
           (max_temperature k) (temperature k) (boiling_time k)
           s (start_time k).

Definition set_start_time (t : Q) (k : Kettle) : Kettle :=
  mkKettle (volume k) (min_volume k) (max_volume k) (start_temperature k)
           (max_temperature k) (temperature k) (boiling_time k)
           (status k) (Some t).

(** [Kettle.__init__] *)
Definition init (config : Config) : Kettle :=
  {| volume := 0;
     min_volume := MIN_VOLUME config;
     max_volume := MAX_VOLUME config;
     start_temperature := START_TEMPERATURE config;
     max_temperature := MAX_TEMPERATURE config;
     temperature := START_TEMPERATURE config;
     boiling_time := BOILING_TIME_SECONDS config;
     status := OFF;
     start_time := None |}.

(** ** The monad of methods: state [self] and exceptions *)

Definition M (A : Type) : Type := Kettle -> Kettle * (exn + A).

Definition ret {A} (a : A) : M A := fun self => (self, inr a).

Definition bind {A B} (m : M A) (f : A -> M B) : M B :=
  fun self =>
    match m self with
    | (self', inl e) => (self', inl e)
    | (self', inr a) => f a self'
    end.

Definition raise {A} (e : exn) : M A := fun self => (self, inl e).

Definition get : M Kettle := fun self => (self, inr self).

Definition assign (f : Kettle -> Kettle) : M unit :=
  fun self => (f self, inr tt).

Declare Scope kettle_scope.
Delimit Scope kettle_scope with kettle.
Notation "x <- m ;; k" := (bind m (fun x => k))
  (at level 61, m at next level, right associativity) : kettle_scope.
Notation "m ;; k" := (bind m (fun _ => k))
  (at level 61, right associativity) : kettle_scope.
Open Scope kettle_scope.

(** [<] and [>=] on floats. *)
Definition Qlt_bool (x y : Q) : bool := negb (Qle_bool y x).
Definition Qge_bool (x y : Q) : bool := Qle_bool y x.

(** [x / y] on floats: a zero divisor raises. *)
Definition fdiv (x y : Q) : M Q :=
  if Qeq_bool y 0 then raise ZeroDivisionError else ret (x / y).

(** Reading [self.start_time]. *)
Definition read_start_time : M Q :=
  self <- get ;;
  match start_time self with
  | Some t => ret t
  | None => raise (AttributeError "start_time")
  end.

(** ** Methods *)

Definition fill_in (volume : Q) : M unit :=
  self <- get ;;
  if Qlt_bool volume 0 then
    raise (KettleFillingError "Water volume can't be negative.")
  else if Qlt_bool (max_volume self) volume then
    raise (KettleFillingError "Max volume exeeded.")
  else assign (set_volume volume).

Definition pour_out : M Q :=
  self <- get ;;
  if KettleStatus_eqb (status self) ON then
    raise (KettlePouringError
             "You can't pour out from working kettle. Stop it first.")
  else
    let volume := volume self in
    assign (set_volume 0) ;;
    assign (set_status OFF) ;;
    ret volume.

Definition _start (now : Q) : M unit :=
  self <- get ;;
  if Qlt_bool (volume self) (min_volume self) then
    raise (KettleSwitchError "Can't start kettle: water level too low.")
  else
    assign (set_start_time now) ;;
    assign (set_status ON).

Definition _stop : M unit := assign (set_status STOPPED).

Definition switch (now : Q) : M unit :=
  self <- get ;;
  if KettleStatus_eqb (status self) OFF then _start now
  else if KettleStatus_eqb (status self) ON then _stop
  else raise (KettleSwitchError "Pour out old water and fill in new.").

Definition _update_temperature (now : Q) : M unit :=
  self <- get ;;
  if negb (KettleStatus_eqb (status self) ON) then ret tt
  else
    start <- read_start_time ;;
    let time_since_start := now - start in
    if Qge_bool time_since_start (boiling_time self) then
      assign (set_temperature (max_temperature self)) ;;
      assign (set_status READY)
    else
      ratio <- fdiv time_since_start (boiling_time self) ;;
      assign (set_temperature
                ((max_temperature self - start_temperature self) * ratio)).

Definition check_condition (now : Q) : M KettleCondition.t :=
  _update_temperature now ;;
  self <- get ;;
  ret (KettleCondition.mk (status self) (temperature self)).

(** ** The four public operations and reachable objects *)

Inductive op : Set :=
| FillIn (volume : Q)
| PourOut
| Switch (now : Q)
| CheckCondition (now : Q).

Inductive value : Set :=
| VNone
| VFloat (x : Q)
| VCondition (c : KettleCondition.t).

Definition call (o : op) : M value :=
  match o with
  | FillIn v => fill_in v ;; ret VNone
  | PourOut => x <- pour_out ;; ret (VFloat x)
  | Switch now => switch now ;; ret VNone
  | CheckCondition now => c <- check_condition now ;; ret (VCondition c)
  end.

(** The object after a call, whether it returned or raised. *)
Definition after (o : op) (self : Kettle) : Kettle := fst (call o self).

Definition run (config : Config) (ops : list op) : Kettle :=
  fold_left (fun self o => after o self) ops (init config).

Inductive reachable (config : Config) : Kettle -> Prop :=
| reachable_init : reachable config (init config)
| reachable_call self o :
    reachable config self -> reachable config (after o self).

(** The three errors of the kettle itself. *)
Definition kettle_error (e : exn) : Prop :=
  match e with
  | KettleFillingError _ | KettleSwitchError _ | KettlePouringError _ => True
  | AttributeError _ | ZeroDivisionError => False
  end.

(** ** A concrete kettle *)

Definition config0 : Config :=
  {| MIN_VOLUME := 1 # 4;
     MAX_VOLUME := 1;
     START_TEMPERATURE := 20;
     MAX_TEMPERATURE := 100;
     BOILING_TIME_SECONDS := 60 |}.

(** Filled with half a litre and switched on at time 0. *)
Definition heating0 : Kettle := run config0 [FillIn (1 # 2); Switch 0].

(** Switched on and then off again. *)
Definition stopped0 : Kettle :=
  run config0 [FillIn (1 # 2); Switch 0; Switch 1].

(** Polled once the boiling time has passed. *)
Definition boiled0 : Kettle :=
  run config0 [FillIn (1 # 2); Switch 0; CheckCondition 60].

(** Successive calls of [check_condition], one per clock reading. *)
Fixpoint poll (nows : list Q) : M (list KettleCondition.t) :=
  match nows with
  | [] => ret []
  | now :: rest =>
      c <- check_condition now ;;
      cs <- poll rest ;;
      ret (c :: cs)
  end.

(** ** The control loop [main]

    [main] talks to a terminal.  What the terminal and the clock
    contribute is given as two finite traces, one entry per pass through
    each of its two loops; what [main] writes is returned as a list.
    [KeyboardInterrupt] is modelled where [main] handles it, during
    [time.sleep(1)]. *)

(** The prompt of [input] and the calls of [print], in order. *)
Inductive output : Set :=
| Prompt (max_volume : Q)
| PrintError (err : exn)
| PrintInputError
| PrintTemperature (t : Q)
| PrintStatusChanged (s : KettleStatus).

(** A pass through the first loop: the value of [float(input(...))],
    [None] when that expression raises an [Exception] ([ValueError] on
    text that is no number), and the reading of the clock that [switch]
    gets if it asks. *)
Record attempt : Set := mkAttempt { entered : option Q; clock : Q }.

(** A pass through the second loop: the reading of the clock in
    [check_condition], and whether [KeyboardInterrupt] cuts the sleep
    short, with the reading that the handler's [switch] gets if it
    asks. *)
Record tick : Set := mkTick { polled : Q; interrupt : option Q }.

(** How a run over finite traces ends: [main] returns, an exception
    leaves it, or the trace ends while a loop is still going. *)
Inductive outcome : Set :=
| Returned
| Raised (err : exn)
| Starved.

(** The loop [while True: try: ... except Exception ...: continue; break].
    The boolean tells whether [break] was reached; when the entries run
    out the loop is waiting at its prompt. *)
Fixpoint fill_loop (attempts : list attempt) (kettle : Kettle)
  : Kettle * list output * bool :=
  match attempts with
  | [] => (kettle, [Prompt (max_volume kettle)], false)
  | a :: rest =>
      let prompt := Prompt (max_volume kettle) in
      match entered a with
      | None =>
          let '(kettle', out, done) := fill_loop rest kettle in
          (kettle', prompt :: PrintInputError :: out, done)
      | Some volume =>
          match (fill_in volume ;; switch (clock a)) kettle with
          | (kettle', inl err) =>
              let '(kettle'', out, done) := fill_loop rest kettle' in
              (kettle'', prompt :: PrintError err :: out, done)
          | (kettle', inr _) => (kettle', [prompt], true)
          end
      end
  end.

(** The loop [while current_status == KettleStatus.ON: ...].  An
    exception raised by [switch] in the handler of [KeyboardInterrupt]
    is pending while the [finally] block runs; the [break] of that block
    discards it. *)
Fixpoint poll_loop (ticks : list tick) (current_status : KettleStatus)
  (kettle : Kettle) : Kettle * list output * outcome :=
  if negb (KettleStatus_eqb current_status ON) then (kettle, [], Returned)
  else
    match ticks with
    | [] => (kettle, [], Starved)
    | t :: rest =>
        match check_condition (polled t) kettle with
        | (kettle1, inl err) => (kettle1, [], Raised err)
        | (kettle1, inr condition) =>
            let printed :=
              PrintTemperature (KettleCondition.temperature condition) in
            let '(kettle2, pending) :=
              match interrupt t with
              | None => (kettle1, None)
              | Some now =>
                  match switch now kettle1 with
                  | (kettle2, inl err) => (kettle2, Some err)
                  | (kettle2, inr _) => (kettle2, None)
                  end
              end in
            let changed :=
              negb (KettleStatus_eqb (KettleCondition.status condition)
                                     current_status) in
            let out :=
              if changed
              then [PrintStatusChanged (KettleCondition.status condition)]
              else [] in
            let current_status' :=
              if changed then KettleCondition.status condition
              else current_status in
            if negb (KettleStatus_eqb (KettleCondition.status condition) ON)
            then (kettle2, printed :: out, Returned)
            else
              match pending with
              | Some err => (kettle2, printed :: out, Raised err)
              | None =>
                  let '(kettle3, out', end_) :=
                    poll_loop rest current_status' kettle2 in
                  (kettle3, (printed :: out) ++ out', end_)
              end
        end
    end.

(** [main]; [now] is the reading of the clock in the call of
    [check_condition] between the two loops. *)
Definition main (config : Config) (attempts : list attempt) (now : Q)
  (ticks : list tick) : Kettle * list output * outcome :=
  match fill_loop attempts (init config) with
  | (kettle, out, false) => (kettle, out, Starved)
  | (kettle, out, true) =>
      match check_condition now kettle with
      | (kettle', inl err) => (kettle', out, Raised err)
      | (kettle', inr condition) =>
          let '(kettle'', out', end_) :=
            poll_loop ticks (KettleCondition.status condition) kettle' in
          (kettle'', out ++ out', end_)
      end
  end.

(** The object after a sequence of calls. *)
Definition after_all (ops : list op) (self : Kettle) : Kettle :=
  fold_left (fun self o => after o self) ops self.

(** A call other than [pour_out]. *)
Definition keeps_water (o : op) : Prop :=
  match o with PourOut => False | _ => True end.

(** ** Invariants of the object *)

(** While heating, the time of the start is known. *)
Definition started (self : Kettle) : Prop :=
  status self = ON -> exists t, start_time self = Some t.

(** Boiled water is at the maximal temperature. *)
Definition boiled (self : Kettle) : Prop :=
  status self = READY -> temperature self = max_temperature self.

(** * The same code over binary64

    The methods and the loops of [main] once more, with a Python
    [float] as a primitive binary64 float: comparisons with NaN are
    false, and [-], [*] and [/] round as in Python.  Properties that
    depend on either are stated on this module. *)

Module Binary64.

Local Open Scope float_scope.

Module KettleCondition.
Record t : Set := mk { status : KettleStatus; temperature : float }.
End KettleCondition.

Record Config : Set := mkConfig {
  MIN_VOLUME : float;
  MAX_VOLUME : float;
  START_TEMPERATURE : float;
  MAX_TEMPERATURE : float;
  BOILING_TIME_SECONDS : float
}.

Record Kettle : Set := mkKettle {
  volume : float;
  min_volume : float;
  max_volume : float;
  start_temperature : float;
  max_temperature : float;
  temperature : float;
  boiling_time : float;
  status : KettleStatus;
  start_time : option float
}.

Definition set_volume (v : float) (k : Kettle) : Kettle :=
  mkKettle v (min_volume k) (max_volume k) (start_temperature k)
           (max_temperature k) (temperature k) (boiling_time k)
           (status k) (start_time k).

Definition set_temperature (t : float) (k : Kettle) : Kettle :=
  mkKettle (volume k) (min_volume k) (max_volume k) (start_temperature k)
           (max_temperature k) t (boiling_time k)
           (status k) (start_time k).

Definition set_status (s : KettleStatus) (k : Kettle) : Kettle :=
  mkKettle (volume k) (min_volume k) (max_volume k) (start_temperature k)
           (max_temperature k) (temperature k) (boiling_time k)
           s (start_time k).

Definition set_start_time (t : float) (k : Kettle) : Kettle :=
  mkKettle (volume k) (min_volume k) (max_volume k) (start_temperature k)
           (max_temperature k) (temperature k) (boiling_time k)
           (status k) (Some t).

(** [Kettle.__init__] *)
Definition init (config : Config) : Kettle :=
  {| volume := 0;
     min_volume := MIN_VOLUME config;
     max_volume := MAX_VOLUME config;
     start_temperature := START_TEMPERATURE config;
     max_temperature := MAX_TEMPERATURE config;
     temperature := START_TEMPERATURE config;
     boiling_time := BOILING_TIME_SECONDS config;
     status := OFF;
     start_time := None |}.

Definition M (A : Type) : Type := Kettle -> Kettle * (exn + A).

Definition ret {A} (a : A) : M A := fun self => (self, inr a).

Definition bind {A B} (m : M A) (f : A -> M B) : M B :=
  fun self =>
    match m self with
    | (self', inl e) => (self', inl e)
    | (self', inr a) => f a self'
    end.

Definition raise {A} (e : exn) : M A := fun self => (self, inl e).

Definition get : M Kettle := fun self => (self, inr self).

Definition assign (f : Kettle -> Kettle) : M unit :=
  fun self => (f self, inr tt).

Declare Scope binary64_scope.
Notation "x <- m ;; k" := (bind m (fun x => k))
  (at level 61, m at next level, right associativity) : binary64_scope.
Notation "m ;; k" := (bind m (fun _ => k))
  (at level 61, right associativity) : binary64_scope.
Local Open Scope binary64_scope.

(** [x / y]: a divisor equal to zero, of either sign, raises. *)
Definition fdiv (x y : float) : M float :=
  if y =? 0 then raise ZeroDivisionError else ret (x / y).

Definition read_start_time : M float :=
  self <- get ;;
  match start_time self with
  | Some t => ret t
  | None => raise (AttributeError "start_time")
  end.

Definition fill_in (volume : float) : M unit :=
  self <- get ;;
  if volume <? 0 then
    raise (KettleFillingError "Water volume can't be negative.")
  else if max_volume self <? volume then
    raise (KettleFillingError "Max volume exeeded.")
  else assign (set_volume volume).

Definition pour_out : M float :=
  self <- get ;;
  if KettleStatus_eqb (status self) ON then
    raise (KettlePouringError
             "You can't pour out from working kettle. Stop it first.")
  else
    let volume := volume self in
    assign (set_volume 0) ;;
    assign (set_status OFF) ;;
    ret volume.

Definition _start (now : float) : M unit :=
  self <- get ;;
  if volume self <? min_volume self then
    raise (KettleSwitchError "Can't start kettle: water level too low.")
  else
    assign (set_start_time now) ;;
    assign (set_status ON).

Definition _stop : M unit := assign (set_status STOPPED).

Definition switch (now : float) : M unit :=
  self <- get ;;
  if KettleStatus_eqb (status self) OFF then _start now
  else if KettleStatus_eqb (status self) ON then _stop
  else raise (KettleSwitchError "Pour out old water and fill in new.").

(** [a >= b] is [b <= a], false when either is NaN. *)
Definition _update_temperature (now : float) : M unit :=
  self <- get ;;
  if negb (KettleStatus_eqb (status self) ON) then ret tt
  else
    start <- read_start_time ;;
    let time_since_start := now - start in
    if boiling_time self <=? time_since_start then
      assign (set_temperature (max_temperature self)) ;;
      assign (set_status READY)
    else
      ratio <- fdiv time_since_start (boiling_time self) ;;
      assign (set_temperature
                ((max_temperature self - start_temperature self) * ratio)).

Definition check_condition (now : float) : M KettleCondition.t :=
  _update_temperature now ;;
  self <- get ;;
  ret (KettleCondition.mk (status self) (temperature self)).

Inductive op : Set :=
| FillIn (volume : float)
| PourOut
| Switch (now : float)
| CheckCondition (now : float).

Inductive value : Set :=
| VNone
| VFloat (x : float)
| VCondition (c : KettleCondition.t).

Definition call (o : op) : M value :=
  match o with
  | FillIn v => fill_in v ;; ret VNone
  | PourOut => x <- pour_out ;; ret (VFloat x)
  | Switch now => switch now ;; ret VNone
  | CheckCondition now => c <- check_condition now ;; ret (VCondition c)
  end.

Definition after (o : op) (self : Kettle) : Kettle := fst (call o self).

Definition run (config : Config) (ops : list op) : Kettle :=
  fold_left (fun self o => after o self) ops (init config).

Inductive reachable (config : Config) : Kettle -> Prop :=
| reachable_init : reachable config (init config)
| reachable_call self o :
    reachable config self -> reachable config (after o self).

(** What [main] writes. *)
Inductive output : Set :=
| Prompt (max_volume : float)
| PrintError (err : exn)
| PrintInputError
| PrintTemperature (t : float)
| PrintStatusChanged (s : KettleStatus).

(** A pass through the first loop: the value of [float(input(...))],
    which may be NaN or infinite, [None] when that expression raises an
    [Exception], and the reading of the clock that [switch] gets if it
    asks. *)
Record attempt : Set := mkAttempt { entered : option float; clock : float }.

(** A pass through the second loop: the reading of the clock in
    [check_condition], and whether [KeyboardInterrupt] cuts the sleep
    short, with the reading that the handler's [switch] gets if it
    asks. *)
Record tick : Set := mkTick { polled : float; interrupt : option float }.

Fixpoint fill_loop (attempts : list attempt) (kettle : Kettle)
  : Kettle * list output * bool :=
  match attempts with
  | [] => (kettle, [Prompt (max_volume kettle)], false)
  | a :: rest =>
      let prompt := Prompt (max_volume kettle) in
      match entered a with
      | None =>
          let '(kettle', out, done) := fill_loop rest kettle in
          (kettle', prompt :: PrintInputError :: out, done)
      | Some volume =>
          match (fill_in volume ;; switch (clock a)) kettle with
          | (kettle', inl err) =>
              let '(kettle'', out, done) := fill_loop rest kettle' in
              (kettle'', prompt :: PrintError err :: out, done)
          | (kettle', inr _) => (kettle', [prompt], true)
          end
      end
  end.

Fixpoint poll_loop (ticks : list tick) (current_status : KettleStatus)
  (kettle : Kettle) : Kettle * list output * outcome :=
  if negb (KettleStatus_eqb current_status ON) then (kettle, [], Returned)
  else
    match ticks with
    | [] => (kettle, [], Starved)
    | t :: rest =>
        match check_condition (polled t) kettle with
        | (kettle1, inl err) => (kettle1, [], Raised err)
        | (kettle1, inr condition) =>
            let printed :=
              PrintTemperature (KettleCondition.temperature condition) in
            let '(kettle2, pending) :=
              match interrupt t with
              | None => (kettle1, None)
              | Some now =>
                  match switch now kettle1 with
                  | (kettle2, inl err) => (kettle2, Some err)
                  | (kettle2, inr _) => (kettle2, None)
                  end
              end in
            let changed :=
              negb (KettleStatus_eqb (KettleCondition.status condition)
                                     current_status) in
            let out :=
              if changed
              then [PrintStatusChanged (KettleCondition.status condition)]
              else [] in
            let current_status' :=
              if changed then KettleCondition.status condition
              else current_status in
            if negb (KettleStatus_eqb (KettleCondition.status condition) ON)
            then (kettle2, printed :: out, Returned)
            else
              match pending with
              | Some err => (kettle2, printed :: out, Raised err)
              | None =>
                  let '(kettle3, out', end_) :=
                    poll_loop rest current_status' kettle2 in
                  (kettle3, (printed :: out) ++ out', end_)
              end
        end
    end.

(** None of the three tests that refuse an entry holds; they all fail
    on NaN. *)
Definition accepted (kettle : Kettle) (a : attempt) : bool :=
  match entered a with
  | None => false
  | Some v =>
      negb (v <? 0) && negb (max_volume kettle <? v)
      && negb (v <? min_volume kettle)
  end.

(** The message that answers an entry refused by a kettle that is
    [OFF]. *)
Definition refusal (kettle : Kettle) (a : attempt) : output :=
  match entered a with
  | None => PrintInputError
  | Some v =>
      if v <? 0 then
        PrintError (KettleFillingError "Water volume can't be negative.")
      else if max_volume kettle <? v then
        PrintError (KettleFillingError "Max volume exeeded.")
      else
        PrintError
          (KettleSwitchError "Can't start kettle: water level too low.")
  end.

Definition config0 : Config :=
  {| MIN_VOLUME := 0.25;
     MAX_VOLUME := 1;
     START_TEMPERATURE := 20;
     MAX_TEMPERATURE := 100;
     BOILING_TIME_SECONDS := 60 |}.

Ltac unfold_method :=
  unfold call, check_condition, _update_temperature, switch, _start, _stop,
    pour_out, fill_in, read_start_time, fdiv,
    bind, get, ret, raise, assign in *.

Ltac split_paths :=
  repeat match goal with
    | |- context [KettleStatus_eqb (status ?k) _] =>
        destruct (status k) eqn:?; simpl
    | |- context [match start_time ?k with _ => _ end] =>
        destruct (start_time k) eqn:?; simpl
    | |- context [if ?b then _ else _] => destruct b eqn:?; simpl
    end.

End Binary64.

(** ** Proof steps shared by the methods *)

(** Unfolds a method down to the state transformer it denotes. *)
Ltac unfold_method :=
  unfold call, check_condition, _update_temperature, switch, _start, _stop,
    pour_out, fill_in, read_start_time, fdiv,
    bind, get, ret, raise, assign in *.

(** Case analysis on every test a method body performs. *)
Ltac split_paths :=
  repeat match goal with
    | |- context [KettleStatus_eqb (status ?k) _] =>
        destruct (status k) eqn:?; simpl
    | |- context [match start_time ?k with _ => _ end] =>
        destruct (start_time k) eqn:?; simpl
    | |- context [if ?b then _ else _] => destruct b eqn:?; simpl
    end.

(** ** Comparisons *)

Lemma Qlt_bool_iff (x y : Q) : Qlt_bool x y = true <-> x < y.
Proof.
  unfold Qlt_bool. rewrite negb_true_iff. split.
  - intros E. apply Qnot_le_lt. intros L.
    apply Qle_bool_iff in L. congruence.
  - intros L. destruct (Qle_bool y x) eqn:E; [|reflexivity].
    apply Qle_bool_iff in E. lra.
Qed.

Lemma Qlt_bool_false_iff (x y : Q) : Qlt_bool x y = false <-> y <= x.
Proof.
  unfold Qlt_bool. rewrite negb_false_iff. apply Qle_bool_iff.
Qed.

Lemma Qge_bool_iff (x y : Q) : Qge_bool x y = true <-> y <= x.
Proof. apply Qle_bool_iff. Qed.

Lemma Qge_bool_false_iff (x y : Q) : Qge_bool x y = false <-> x < y.
Proof.
  unfold Qge_bool. split.
  - intros E. apply Qnot_le_lt. intros L.
    apply Qle_bool_iff in L. congruence.
  - intros L. destruct (Qle_bool y x) eqn:E; [|reflexivity].
    apply Qle_bool_iff in E. lra.
Qed.

Lemma Qeq_bool_false_iff (x y : Q) : Qeq_bool x y = false <-> ~ x == y.
Proof.
  split.
  - intros E H. apply Qeq_bool_iff in H. congruence.
  - intros H. destruct (Qeq_bool x y) eqn:E; [|reflexivity].
    apply Qeq_bool_iff in E. contradiction.
Qed.

Lemma KettleStatus_eqb_eq (a b : KettleStatus) :
  KettleStatus_eqb a b = true <-> a = b.
Proof. destruct a, b; simpl; split; congruence. Qed.

(** ** Equations of the methods, one per path through the body *)

Lemma fill_in_negative (self : Kettle) (v : Q) :
  v < 0 ->
  fill_in v self =
  (self, inl (KettleFillingError "Water volume can't be negative.")).
Proof.
  intros L. apply Qlt_bool_iff in L. unfold_method. now rewrite L.
Qed.

Lemma fill_in_exceeded (self : Kettle) (v : Q) :
  0 <= v -> max_volume self < v ->
  fill_in v self = (self, inl (KettleFillingError "Max volume exeeded.")).
Proof.
  intros L0 L. apply Qlt_bool_false_iff in L0. apply Qlt_bool_iff in L.
  unfold_method. now rewrite L0, L.
Qed.

Lemma fill_in_stores (self : Kettle) (v : Q) :
  0 <= v -> v <= max_volume self ->
  fill_in v self = (set_volume v self, inr tt).
Proof.
  intros L0 L. apply Qlt_bool_false_iff in L0, L.
  unfold_method. now rewrite L0, L.
Qed.

Lemma pour_out_heating (self : Kettle) :
  status self = ON ->
  pour_out self =
  (self, inl (KettlePouringError
                "You can't pour out from working kettle. Stop it first.")).
Proof. intros E. unfold_method. now rewrite E. Qed.

Lemma pour_out_empties (self : Kettle) :
  status self <> ON ->
  pour_out self = (set_status OFF (set_volume 0 self), inr (volume self)).
Proof.
  intros E. unfold_method.
  destruct (status self); [contradiction| | |]; reflexivity.
Qed.

Lemma switch_starts (self : Kettle) (now : Q) :
  status self = OFF -> min_volume self <= volume self ->
  switch now self = (set_status ON (set_start_time now self), inr tt).
Proof.
  intros E L. apply Qlt_bool_false_iff in L.
  unfold_method. rewrite E. simpl. now rewrite L.
Qed.

Lemma switch_too_low (self : Kettle) (now : Q) :
  status self = OFF -> volume self < min_volume self ->
  switch now self =
  (self, inl (KettleSwitchError "Can't start kettle: water level too low.")).
Proof.
  intros E L. apply Qlt_bool_iff in L.
  unfold_method. rewrite E. simpl. now rewrite L.
Qed.

Lemma switch_stops (self : Kettle) (now : Q) :
  status self = ON ->
  switch now self = (set_status STOPPED self, inr tt).
Proof. intros E. unfold_method. now rewrite E. Qed.

Lemma switch_refused (self : Kettle) (now : Q) :
  status self = READY \/ status self = STOPPED ->
  switch now self =
  (self, inl (KettleSwitchError "Pour out old water and fill in new.")).
Proof. intros [E|E]; unfold_method; now rewrite E. Qed.

Lemma check_condition_idle (self : Kettle) (now : Q) :
  status self <> ON ->
  check_condition now self =
  (self, inr (KettleCondition.mk (status self) (temperature self))).
Proof.
  intros E. unfold_method.
  destruct (status self) eqn:S; [contradiction| | |]; simpl; now rewrite S.
Qed.

Lemma check_condition_boiled (self : Kettle) (start now : Q) :
  status self = ON -> start_time self = Some start ->
  boiling_time self <= now - start ->
  check_condition now self =
  (set_status READY (set_temperature (max_temperature self) self),
   inr (KettleCondition.mk READY (max_temperature self))).
Proof.
  intros E S L. apply Qge_bool_iff in L.
  unfold_method. rewrite E. simpl. rewrite S, L. reflexivity.
Qed.

Lemma check_condition_heating (self : Kettle) (start now : Q) :
  status self = ON -> start_time self = Some start ->
  now - start < boiling_time self -> ~ boiling_time self == 0 ->
  check_condition now self =
  (set_temperature
     ((max_temperature self - start_temperature self)
      * ((now - start) / boiling_time self)) self,
   inr (KettleCondition.mk ON
          ((max_temperature self - start_temperature self)
           * ((now - start) / boiling_time self)))).
Proof.
  intros E S L Z. apply Qge_bool_false_iff in L.
  apply Qeq_bool_false_iff in Z.
  unfold_method. rewrite E. simpl. rewrite S, L, Z. simpl.
  now rewrite E.
Qed.

(** ** Calls as a whole *)

(** An exception of any kind leaves the object as the call found it:
    every [raise] of the four methods precedes the first assignment. *)
Lemma raise_keeps_self (o : op) (self : Kettle) (e : exn) :
  snd (call o self) = inl e -> after o self = self.
Proof.
  unfold after. destruct o; unfold_method; simpl; split_paths;
    intros; try reflexivity; discriminate.
Qed.

(** No call writes the five attributes read from the configuration. *)
Lemma after_keeps_config (o : op) (self : Kettle) :
  min_volume (after o self) = min_volume self
  /\ max_volume (after o self) = max_volume self
  /\ start_temperature (after o self) = start_temperature self
  /\ max_temperature (after o self) = max_temperature self
  /\ boiling_time (after o self) = boiling_time self.
Proof.
  unfold after. destruct o; unfold_method; simpl; split_paths;
    repeat split; reflexivity.
Qed.

Lemma run_snoc (config : Config) (ops : list op) (o : op) :
  run config (ops ++ [o]) = after o (run config ops).
Proof. unfold run. now rewrite fold_left_app. Qed.

Lemma reachable_run (config : Config) (ops : list op) :
  reachable config (run config ops).
Proof.
  induction ops as [|o ops IH] using rev_ind.
  - apply reachable_init.
  - rewrite run_snoc. now apply reachable_call.
Qed.

Lemma reachable_is_run (config : Config) (self : Kettle) :
  reachable config self -> exists ops, self = run config ops.
Proof.
  induction 1 as [|self o _ [ops ->]].
  - now exists [].
  - exists (ops ++ [o]). now rewrite run_snoc.
Qed.

Section Invariants.

Variable config : Config.

Lemma started_after (o : op) (self : Kettle) :
  started self -> started (after o self).
Proof.
  unfold started, after. intros I.
  destruct o; unfold_method; simpl; split_paths; simpl;
    intros; try discriminate; try congruence; eauto.
  destruct I as [t Ht]; congruence.
Qed.

Lemma boiled_after (o : op) (self : Kettle) :
  boiled self -> boiled (after o self).
Proof.
  unfold boiled, after. intros I.
  destruct o; unfold_method; simpl; split_paths; simpl;
    intros; try discriminate; try reflexivity; try congruence; auto.
Qed.

Lemma reachable_started (self : Kettle) :
  reachable config self -> started self.
Proof.
  induction 1 as [|self o _ IH].
  - discriminate.
  - now apply started_after.
Qed.

Lemma reachable_boiled (self : Kettle) :
  reachable config self -> boiled self.
Proof.
  induction 1 as [|self o _ IH].
  - discriminate.
  - now apply boiled_after.
Qed.

Lemma reachable_config (self : Kettle) :
  reachable config self ->
  min_volume self = MIN_VOLUME config
  /\ max_volume self = MAX_VOLUME config
  /\ start_temperature self = START_TEMPERATURE config
  /\ max_temperature self = MAX_TEMPERATURE config
  /\ boiling_time self = BOILING_TIME_SECONDS config.
Proof.
  induction 1 as [|self o _ (A & B & C & D & E)].
  - repeat split.
  - destruct (after_keeps_config o self) as (A' & B' & C' & D' & E').
    repeat split; congruence.
Qed.

End Invariants.

(** ** The filling and pouring contracts *)

(** C10: [fill_in] never reads the status.  For [0 <= v <= max_volume]
    it returns in every status, [ON] included, storing [v] and leaving
    status, [start_time] and temperature as they were. *)
Theorem C10_fill_in_ignores_status (self : Kettle) (v : Q) :
  0 <= v -> v <= max_volume self ->
  (exists self',
     fill_in v self = (self', inr tt)
     /\ volume self' = v
     /\ status self' = status self
     /\ start_time self' = start_time self
     /\ temperature self' = temperature self)
  /\ (forall s : KettleStatus,
        fill_in v (set_status s self)
        = (set_status s (set_volume v self), inr tt)).
Proof.
  intros L0 L. split.
  - exists (set_volume v self).
    rewrite fill_in_stores by assumption. now repeat split.
  - intros s. now rewrite fill_in_stores.
Qed.

Lemma C10_fill_in_ignores_status_witness :
  status heating0 = ON
  /\ exists self',
       fill_in (3 # 4) heating0 = (self', inr tt)
       /\ volume self' = 3 # 4
       /\ status self' = status heating0
       /\ start_time self' = start_time heating0
       /\ temperature self' = temperature heating0.
Proof.
  split; [reflexivity|].
  apply (proj1 (C10_fill_in_ignores_status heating0 (3 # 4)
                  ltac:(vm_compute; discriminate)
                  ltac:(vm_compute; discriminate))).
Defined.

(** C7: [pour_out] raises [KettlePouringError] exactly when the status
    is [ON].  In [OFF], [READY] and [STOPPED] it returns the volume held
    before the call, and leaves volume 0, status [OFF] and the
    temperature as it was. *)
Theorem C7_pour_out_contract (self : Kettle) :
  (status self = ON ->
   exists msg, pour_out self = (self, inl (KettlePouringError msg)))
  /\ (status self <> ON ->
      exists self',
        pour_out self = (self', inr (volume self))
        /\ volume self' = 0
        /\ status self' = OFF
        /\ temperature self' = temperature self)
  /\ ((exists self' e, pour_out self = (self', inl e)) <-> status self = ON).
Proof.
  split; [|split].
  - intros E. eexists. now apply pour_out_heating.
  - intros E. exists (set_status OFF (set_volume 0 self)).
    rewrite pour_out_empties by assumption. now repeat split.
  - split.
    + intros (self' & e & E).
      destruct (status self) eqn:S; [reflexivity| | |];
        rewrite pour_out_empties in E by congruence; discriminate.
    + intros E. exists self. eexists. now apply pour_out_heating.
Qed.

Lemma C7_pour_out_contract_witness :
  (exists msg, pour_out heating0 = (heating0, inl (KettlePouringError msg)))
  /\ (exists self',
        pour_out boiled0 = (self', inr (volume boiled0))
        /\ volume self' = 0
        /\ status self' = OFF
        /\ temperature self' = temperature boiled0).
Proof.
  split.
  - apply (proj1 (C7_pour_out_contract heating0)). reflexivity.
  - apply (proj1 (proj2 (C7_pour_out_contract boiled0))).
    vm_compute. discriminate.
Defined.

(** ** The power switch *)



(** ** Sampling the condition *)

(** C4: while [ON] with elapsed time [now - start_time >= boiling_time],
    [check_condition] sets status [READY] and temperature
    [max_temperature] and returns that pair; every further call, at
    whatever clock readings, returns the same pair and leaves the object
    as it is. *)
Theorem C4_boiled_is_terminal (self : Kettle) (start now : Q) :
  status self = ON -> start_time self = Some start ->
  boiling_time self <= now - start ->
  let ready := KettleCondition.mk READY (max_temperature self) in
  exists self',
    check_condition now self = (self', inr ready)
    /\ status self' = READY
    /\ temperature self' = max_temperature self
    /\ forall later : list Q,
         poll later self' = (self', inr (repeat ready (List.length later))).
Proof.
  intros E S L ready.
  exists (set_status READY (set_temperature (max_temperature self) self)).
  rewrite (check_condition_boiled self start now E S L).
  repeat split.
  induction later as [|t later IH]; [reflexivity|].
  simpl. unfold bind at 1.
  rewrite check_condition_idle by (simpl; discriminate).
  unfold bind at 1. rewrite IH. reflexivity.
Qed.

Lemma C4_boiled_is_terminal_witness :
  exists self',
    check_condition 75 heating0
    = (self', inr (KettleCondition.mk READY (max_temperature heating0)))
    /\ status self' = READY
    /\ temperature self' = max_temperature heating0
    /\ forall later : list Q,
         poll later self'
         = (self',
            inr (repeat (KettleCondition.mk READY (max_temperature heating0))
                        (List.length later))).
Proof.
  apply (C4_boiled_is_terminal heating0 0 75).
  - reflexivity.
  - reflexivity.
  - vm_compute. discriminate.
Defined.

(** C1 (the code departs from the claim).  Claimed: while [ON] with
    elapsed time [0 <= e < boiling_time], [check_condition] sets and
    returns the temperature
    [start_temperature + (max_temperature - start_temperature) * (e / boiling_time)]
    and the status stays [ON].  The assignment in [_update_temperature]
    has no [start_temperature +]: 30 s into the 60 s of [heating0]
    (from 20 to 100 degrees) the temperature set and returned is 40,
    where the claimed ramp gives 60.  The status does stay [ON]. *)
Theorem C1_ramp_lacks_start_temperature :
  let e := 30 - 0 in
  let claimed :=
    start_temperature heating0
    + (max_temperature heating0 - start_temperature heating0)
      * (e / boiling_time heating0) in
  status heating0 = ON
  /\ start_time heating0 = Some 0
  /\ 0 <= e < boiling_time heating0
  /\ exists self' t,
       check_condition 30 heating0 = (self', inr (KettleCondition.mk ON t))
       /\ status self' = ON
       /\ temperature self' = t
       /\ t == 40
       /\ claimed == 60
       /\ ~ t == claimed.
Proof.
  cbv zeta. repeat apply conj; try reflexivity.
  - vm_compute. discriminate.
  - eexists. eexists.
    rewrite (check_condition_heating heating0 0 30);
      [|reflexivity|reflexivity|vm_compute; reflexivity
       |vm_compute; discriminate].
    repeat apply conj; try reflexivity; vm_compute; discriminate.
Qed.

(** C3 (the code departs from the claim).  Claimed: a temperature that
    [check_condition] produced while [ON] lies in
    [[start_temperature, max_temperature]].  Polled at the very reading
    of the clock at which it was switched on, the reachable kettle
    [heating0] gets temperature 0, below its start temperature 20: the
    ramp of [_update_temperature] starts from 0. *)
Theorem C3_heating_temperature_below_start :
  let self' := after (CheckCondition 0) heating0 in
  reachable config0 heating0
  /\ status heating0 = ON
  /\ reachable config0 self'
  /\ start_temperature self' <= max_temperature self'
  /\ status self' = ON
  /\ temperature self' == 0
  /\ temperature self' < start_temperature self'
  /\ ~ (start_temperature self' <= temperature self' <= max_temperature self').
Proof.
  cbv zeta. repeat apply conj; try reflexivity.
  - apply reachable_run.
  - apply reachable_call, reachable_run.
  - vm_compute. discriminate.
  - intros [L _]. vm_compute in L. now apply L.
Qed.

(** ** Failed calls *)

(** C8: whichever of the four operations is called and in whatever
    state, if the call raises [KettleFillingError], [KettleSwitchError]
    or [KettlePouringError] then the object, and so each of volume,
    status, temperature and [start_time], is as it was before the
    call. *)
Theorem C8_failed_call_changes_nothing (o : op) (self : Kettle) (e : exn) :
  snd (call o self) = inl e -> kettle_error e ->
  after o self = self
  /\ volume (after o self) = volume self
  /\ status (after o self) = status self
  /\ temperature (after o self) = temperature self
  /\ start_time (after o self) = start_time self.
Proof.
  intros E _. rewrite (raise_keeps_self o self e E). now repeat split.
Qed.

Lemma C8_failed_call_changes_nothing_witness :
  after PourOut heating0 = heating0
  /\ volume (after PourOut heating0) = volume heating0
  /\ status (after PourOut heating0) = status heating0
  /\ temperature (after PourOut heating0) = temperature heating0
  /\ start_time (after PourOut heating0) = start_time heating0.
Proof.
  apply (C8_failed_call_changes_nothing PourOut heating0
           (KettlePouringError
              "You can't pour out from working kettle. Stop it first.")).
  - reflexivity.
  - exact I.
Defined.

(** ** Invariants of reachable objects *)

(** C9: in every state reached from [__init__] by calls of the four
    operations, status [READY] implies that the temperature is
    [max_temperature]. *)
Theorem C9_ready_at_max_temperature (config : Config) (self : Kettle) :
  reachable config self -> status self = READY ->
  temperature self = max_temperature self
  /\ temperature self = MAX_TEMPERATURE config.
Proof.
  intros R E.
  pose proof (reachable_boiled config self R E) as T.
  destruct (reachable_config config self R) as (_ & _ & _ & D & _).
  split; congruence.
Qed.

Lemma C9_ready_at_max_temperature_witness :
  temperature boiled0 = max_temperature boiled0
  /\ temperature boiled0 = MAX_TEMPERATURE config0.
Proof.
  apply (C9_ready_at_max_temperature config0 boiled0).
  - apply reachable_run.
  - reflexivity.
Defined.

(** C2, as claimed, fails: after switching on and off again the kettle
    is [STOPPED] and still has the [start_time] of its start. *)
Lemma C2_start_time_outlives_heating :
  ~ (forall (config : Config) (self : Kettle),
       reachable config self ->
       (start_time self <> None <-> status self = ON)).
Proof.
  intros H.
  assert (E : status stopped0 = ON).
  { apply (H config0 stopped0 (reachable_run _ _)). discriminate. }
  discriminate E.
Qed.

(** A call leaves [start_time] as it was, unless it is the [switch]
    that starts the kettle. *)
Lemma start_time_after (o : op) (self : Kettle) :
  start_time (after o self) = start_time self
  \/ exists now,
       o = Switch now /\ status self = OFF
       /\ start_time (after o self) = Some now.
Proof.
  unfold after.
  destruct o; unfold_method; simpl; split_paths;
    try (left; reflexivity); try (left; assumption).
  right. eexists. now repeat split.
Qed.

(** C2, amended: in every state reached from [__init__] by calls of the
    four operations, status [ON] implies that [start_time] is set.  The
    converse fails, because [start_time] is never unset: every call
    leaves it as it was, except the [switch] that starts a kettle that
    is [OFF], which sets it to the reading of the clock; so once set it
    stays set.  In particular the transition of [switch] from [ON] to
    [STOPPED] leaves it as it was. *)
Theorem C2_heating_has_start_time (config : Config) (self : Kettle) :
  reachable config self ->
  (status self = ON -> exists t, start_time self = Some t)
  /\ (forall o,
        start_time (after o self) = start_time self
        \/ exists now,
             o = Switch now /\ status self = OFF
             /\ start_time (after o self) = Some now)
  /\ (forall o t,
        start_time self = Some t ->
        exists t', start_time (after o self) = Some t')
  /\ (status self = ON ->
      forall now,
        status (after (Switch now) self) = STOPPED
        /\ start_time (after (Switch now) self) = start_time self).
Proof.
  intros R. repeat apply conj.
  - now apply (reachable_started config).
  - intros o. apply start_time_after.
  - intros o t S.
    destruct (start_time_after o self) as [E|(now & _ & _ & E)];
      rewrite E; eauto.
  - intros E now. unfold after, call, bind.
    rewrite switch_stops by assumption. now split.
Qed.

Lemma C2_heating_has_start_time_witness :
  (status heating0 = ON -> exists t, start_time heating0 = Some t)
  /\ (forall o,
        start_time (after o heating0) = start_time heating0
        \/ exists now,
             o = Switch now /\ status heating0 = OFF
             /\ start_time (after o heating0) = Some now)
  /\ (forall o t,
        start_time heating0 = Some t ->
        exists t', start_time (after o heating0) = Some t')
  /\ (status heating0 = ON ->
      forall now,
        status (after (Switch now) heating0) = STOPPED
        /\ start_time (after (Switch now) heating0) = start_time heating0).
Proof.
  apply (C2_heating_has_start_time config0 heating0).
  apply reachable_run.
Defined.

(** ** Further properties of the methods *)

(** Turns the boolean tests met along a path into order facts. *)
Ltac order_facts :=
  repeat match goal with
    | H : Qlt_bool _ _ = true |- _ => apply Qlt_bool_iff in H
    | H : Qlt_bool _ _ = false |- _ => apply Qlt_bool_false_iff in H
    | H : Qge_bool _ _ = true |- _ => apply Qge_bool_iff in H
    | H : Qge_bool _ _ = false |- _ => apply Qge_bool_false_iff in H
    | H : Qeq_bool _ _ = true |- _ => apply Qeq_bool_iff in H
    | H : Qeq_bool _ _ = false |- _ => apply Qeq_bool_false_iff in H
    end.

Lemma after_check_condition (now : Q) (self : Kettle) :
  after (CheckCondition now) self = fst (check_condition now self).
Proof.
  unfold after, call, bind.
  now destruct (check_condition now self) as [k [e|c]].
Qed.

Lemma after_switch (now : Q) (self : Kettle) :
  after (Switch now) self = fst (switch now self).
Proof.
  unfold after, call, bind.
  now destruct (switch now self) as [k [e|c]].
Qed.

Lemma check_condition_returns (self : Kettle) (now : Q) :
  started self -> ~ boiling_time self == 0 ->
  exists self',
    check_condition now self
    = (self', inr (KettleCondition.mk (status self') (temperature self'))).
Proof.
  intros S Z. destruct (status self) eqn:E.
  - destruct (S E) as [s Hs].
    destruct (Qlt_le_dec (now - s) (boiling_time self)) as [L|L].
    + exists (fst (check_condition now self)).
      rewrite (check_condition_heating self s now) by assumption.
      simpl. now rewrite E.
    + exists (fst (check_condition now self)).
      now rewrite (check_condition_boiled self s now).
  - exists self. rewrite check_condition_idle by congruence. now rewrite E.
  - exists self. rewrite check_condition_idle by congruence. now rewrite E.
  - exists self. rewrite check_condition_idle by congruence. now rewrite E.
Qed.

(** X2: when the configured boiling time is not zero, [check_condition]
    raises nothing in any state reached from [__init__] by calls of the
    four operations: the attribute [start_time] is there whenever it is
    read.  The condition returned is that of the object after the
    call. *)
Theorem X2_check_condition_returns (config : Config) (self : Kettle)
  (now : Q) :
  reachable config self -> ~ BOILING_TIME_SECONDS config == 0 ->
  exists self',
    check_condition now self
    = (self', inr (KettleCondition.mk (status self') (temperature self'))).
Proof.
  intros R Z. apply check_condition_returns.
  - now apply (reachable_started config).
  - destruct (reachable_config config self R) as (_ & _ & _ & _ & B).
    now rewrite B.
Qed.

Lemma X2_check_condition_returns_witness :
  exists self',
    check_condition 30 heating0
    = (self', inr (KettleCondition.mk (status self') (temperature self'))).
Proof.
  apply (X2_check_condition_returns config0 heating0 30).
  - apply reachable_run.
  - vm_compute. discriminate.
Defined.

(** X3: with a boiling time of zero, polling a heating kettle at a
    reading of the clock earlier than its start divides by zero:
    [check_condition] raises [ZeroDivisionError] and the object is as it
    was. *)
Theorem X3_zero_boiling_time_divides_by_zero (self : Kettle) (start now : Q) :
  status self = ON -> start_time self = Some start ->
  boiling_time self == 0 -> now < start ->
  check_condition now self = (self, inl ZeroDivisionError).
Proof.
  intros E S Z L.
  assert (G : Qge_bool (now - start) (boiling_time self) = false).
  { apply Qge_bool_false_iff. lra. }
  apply Qeq_bool_iff in Z.
  unfold_method. rewrite E. simpl. rewrite S, G, Z. reflexivity.
Qed.

Lemma X3_zero_boiling_time_divides_by_zero_witness :
  check_condition 3
    (run (mkConfig (1 # 4) 1 20 100 0) [FillIn (1 # 2); Switch 5])
  = (run (mkConfig (1 # 4) 1 20 100 0) [FillIn (1 # 2); Switch 5],
     inl ZeroDivisionError).
Proof.
  apply (X3_zero_boiling_time_divides_by_zero _ 5 3).
  - reflexivity.
  - reflexivity.
  - reflexivity.
  - reflexivity.
Defined.

(** X4: with readings of the clock that do not go back, a poll in
    between changes nothing for the next one: [check_condition] at
    [now2] gives the same result and the same object whether or not
    [check_condition] was called at [now1 <= now2] before. *)
Theorem X4_polling_between_is_harmless (self : Kettle) (now1 now2 : Q) :
  now1 <= now2 ->
  check_condition now2 (after (CheckCondition now1) self)
  = check_condition now2 self.
Proof.
  intros L. rewrite after_check_condition.
  destruct (status self) eqn:E;
    [|rewrite (check_condition_idle self now1) by congruence; reflexivity ..].
  destruct (start_time self) as [s|] eqn:S.
  - destruct (Qlt_le_dec (now1 - s) (boiling_time self)) as [L1|L1].
    + destruct (Qeq_bool (boiling_time self) 0) eqn:Z; order_facts.
      * assert (G : Qge_bool (now1 - s) (boiling_time self) = false)
          by now apply Qge_bool_false_iff.
        apply Qeq_bool_iff in Z.
        unfold check_condition at 2, _update_temperature, read_start_time,
          fdiv, bind, get, ret, raise.
        rewrite E. simpl. rewrite S, G, Z. reflexivity.
      * rewrite (check_condition_heating self s now1) by assumption.
        simpl. unfold_method. simpl. rewrite E. simpl. rewrite S.
        split_paths; try reflexivity.
        order_facts. contradiction.
    + rewrite (check_condition_boiled self s now1) by assumption.
      rewrite (check_condition_boiled self s now2) by (try assumption; lra).
      simpl. now rewrite check_condition_idle by (simpl; discriminate).
  - unfold check_condition at 2, _update_temperature, read_start_time,
      bind, get, ret, raise.
    rewrite E. simpl. rewrite S. reflexivity.
Qed.

Lemma X4_polling_between_is_harmless_witness :
  check_condition 45 (after (CheckCondition 30) heating0)
  = check_condition 45 heating0.
Proof.
  apply (X4_polling_between_is_harmless heating0 30 45).
  vm_compute. discriminate.
Defined.

Lemma idle_after (o : op) (self : Kettle) :
  status self = READY \/ status self = STOPPED -> keeps_water o ->
  status (after o self) = status self
  /\ temperature (after o self) = temperature self.
Proof.
  unfold after.
  intros [E|E] K; destruct o; try contradiction;
    unfold_method; rewrite ?E; simpl; split_paths; now rewrite ?E.
Qed.

(** X5: a kettle that is [READY] or [STOPPED] stays so, at the same
    temperature, through every sequence of calls that has no
    [pour_out]: filling, switching and polling cannot restart it. *)
Theorem X5_only_pouring_leaves_ready_and_stopped (ops : list op)
  (self : Kettle) :
  status self = READY \/ status self = STOPPED ->
  Forall keeps_water ops ->
  status (after_all ops self) = status self
  /\ temperature (after_all ops self) = temperature self.
Proof.
  intros E K. revert self E.
  induction K as [|o ops Ko _ IH]; intros self E; [now split|].
  destruct (idle_after o self E Ko) as [S T].
  unfold after_all in *. simpl.
  destruct (IH (after o self)) as [S' T']; [now rewrite S|].
  split; congruence.
Qed.

Lemma X5_only_pouring_leaves_ready_and_stopped_witness :
  status (after_all [Switch 70; FillIn (3 # 4); CheckCondition 80; Switch 90]
            boiled0) = status boiled0
  /\ temperature
       (after_all [Switch 70; FillIn (3 # 4); CheckCondition 80; Switch 90]
          boiled0) = temperature boiled0.
Proof.
  apply (X5_only_pouring_leaves_ready_and_stopped
           [Switch 70; FillIn (3 # 4); CheckCondition 80; Switch 90] boiled0).
  - left. reflexivity.
  - repeat constructor.
Defined.

(** X6: from every status but [ON], pouring out, filling with a volume
    [v] between the minimal and the maximal volume, [0 <= v], and
    switching starts a new heating: the three calls return, the status
    is [ON], the volume [v] and [start_time] the reading of the clock.
    The temperature is still that of the water poured out. *)
Theorem X6_pour_fill_switch_restarts (self : Kettle) (v now : Q) :
  status self <> ON ->
  0 <= v -> min_volume self <= v -> v <= max_volume self ->
  exists self',
    (pour_out ;; fill_in v ;; switch now) self = (self', inr tt)
    /\ status self' = ON
    /\ volume self' = v
    /\ start_time self' = Some now
    /\ temperature self' = temperature self.
Proof.
  intros E L0 Lmin Lmax.
  exists (set_status ON (set_start_time now
            (set_volume v (set_status OFF (set_volume 0 self))))).
  unfold bind. rewrite pour_out_empties by assumption.
  rewrite fill_in_stores by assumption.
  rewrite switch_starts by (simpl; try reflexivity; assumption).
  now repeat split.
Qed.

Lemma X6_pour_fill_switch_restarts_witness :
  exists self',
    (pour_out ;; fill_in (3 # 4) ;; switch 100) boiled0 = (self', inr tt)
    /\ status self' = ON
    /\ volume self' = 3 # 4
    /\ start_time self' = Some 100
    /\ temperature self' = temperature boiled0.
Proof.
  apply (X6_pour_fill_switch_restarts boiled0 (3 # 4) 100).
  - vm_compute. discriminate.
  - vm_compute. discriminate.
  - vm_compute. discriminate.
  - vm_compute. discriminate.
Defined.

(** X8: pouring out an empty kettle is no error.  After a [pour_out]
    that returned, a second [pour_out] returns 0 and leaves the object
    as the first one left it. *)
Theorem X8_pouring_twice (self : Kettle) :
  status self <> ON ->
  pour_out (fst (pour_out self)) = (fst (pour_out self), inr 0).
Proof.
  intros E. rewrite (pour_out_empties self) by assumption. simpl.
  now rewrite pour_out_empties by (simpl; discriminate).
Qed.

Lemma X8_pouring_twice_witness :
  pour_out (fst (pour_out stopped0)) = (fst (pour_out stopped0), inr 0).
Proof.
  apply (X8_pouring_twice stopped0). vm_compute. discriminate.
Defined.

(** X11: the moves of the status under a call of any of the four
    operations, returning or raising.  In particular a heating kettle
    never becomes [OFF] in one call, and a [READY] or [STOPPED] one
    never becomes [ON], nor one the other. *)
Theorem X11_status_moves (o : op) (self : Kettle) :
  In (status self, status (after o self))
     [(OFF, OFF); (OFF, ON);
      (ON, ON); (ON, STOPPED); (ON, READY);
      (READY, READY); (READY, OFF);
      (STOPPED, STOPPED); (STOPPED, OFF)].
Proof.
  unfold after.
  destruct (status self) eqn:E; destruct o; unfold_method;
    rewrite ?E; simpl; split_paths; rewrite ?E; simpl; tauto.
Qed.

(** ** The control loop *)

(** The body of the [try] of the first loop, on a kettle that is
    [OFF]. *)
Lemma entry_outcome (kettle kettle' : Kettle) (v now : Q)
  (r : exn + unit) :
  status kettle = OFF ->
  (fill_in v ;; switch now) kettle = (kettle', r) ->
  match r with
  | inr _ =>
      (0 <= v /\ v <= max_volume kettle /\ min_volume kettle <= v)
      /\ kettle' = set_status ON (set_start_time now (set_volume v kettle))
  | inl _ =>
      ~ (0 <= v /\ v <= max_volume kettle /\ min_volume kettle <= v)
      /\ (kettle' = kettle \/ kettle' = set_volume v kettle)
  end.
Proof.
  intros E. unfold bind.
  destruct (Qlt_le_dec v 0) as [L0|L0].
  { rewrite fill_in_negative by assumption.
    intros [= <- <-]. split; [lra|now left]. }
  destruct (Qlt_le_dec (max_volume kettle) v) as [L|L].
  { rewrite fill_in_exceeded by assumption.
    intros [= <- <-]. split; [lra|now left]. }
  rewrite fill_in_stores by assumption.
  destruct (Qlt_le_dec v (min_volume kettle)) as [Lm|Lm].
  - rewrite switch_too_low by assumption.
    intros [= <- <-]. split; [simpl; lra|now right].
  - rewrite switch_starts by assumption.
    intros [= <- <-]. now repeat split.
Qed.

(** Where the first loop is left, and with what kettle. *)
Lemma fill_loop_left (attempts : list attempt) (kettle kettle' : Kettle)
  (out : list output) :
  status kettle = OFF ->
  fill_loop attempts kettle = (kettle', out, true) ->
  exists a v,
    In a attempts /\ entered a = Some v
    /\ 0 <= v /\ v <= max_volume kettle /\ min_volume kettle <= v
    /\ kettle' = set_status ON (set_start_time (clock a) (set_volume v kettle)).
Proof.
  revert kettle out.
  induction attempts as [|a rest IH]; intros kettle out E; simpl;
    [discriminate|].
  destruct (entered a) as [v|] eqn:V.
  - destruct ((fill_in v ;; switch (clock a)) kettle) as [k r] eqn:B.
    pose proof (entry_outcome kettle k v (clock a) r E B) as O.
    destruct r as [err|u].
    + destruct O as [_ K].
      destruct (fill_loop rest k) as [[k' o] d] eqn:F.
      intros [= <- _ ->].
      assert (S : k = set_volume (volume k) kettle /\ status k = OFF).
      { destruct K as [->| ->]; [now destruct kettle|now split]. }
      destruct S as [S E'].
      destruct (IH k o E' F) as (a' & v' & I & V' & L0 & LM & Lm & ->).
      exists a', v'. rewrite S in LM, Lm. rewrite S at 1.
      now repeat split; auto.
    + destruct O as [(L0 & LM & Lm) ->].
      intros [= <- _]. exists a, v. now repeat split; auto.
  - destruct (fill_loop rest kettle) as [[k' o] d] eqn:F.
    intros [= <- _ ->].
    destruct (IH kettle o E F) as (a' & v' & I & V' & L0 & LM & Lm & ->).
    exists a', v'. now repeat split; auto.
Qed.

(** What [check_condition] returns is the condition of the object it
    leaves, and it never turns a kettle [OFF]. *)
Lemma check_condition_snapshot (self self' : Kettle) (now : Q)
  (c : KettleCondition.t) :
  check_condition now self = (self', inr c) ->
  c = KettleCondition.mk (status self') (temperature self').
Proof.
  unfold_method. split_paths; intros [= <- <-]; reflexivity.
Qed.

Lemma check_condition_not_off (self : Kettle) (now : Q) :
  status self <> OFF -> status (fst (check_condition now self)) <> OFF.
Proof.
  unfold_method. split_paths; simpl; congruence.
Qed.

(** One pass through the second loop, by the status polled. *)
Lemma poll_loop_left (ticks : list tick) (s : KettleStatus)
  (kettle : Kettle) :
  s <> ON -> poll_loop ticks s kettle = (kettle, [], Returned).
Proof. intros N. destruct ticks, s; try reflexivity; contradiction. Qed.

Lemma poll_loop_break (t : tick) (rest : list tick)
  (kettle kettle1 : Kettle) :
  check_condition (polled t) kettle
  = (kettle1, inr (KettleCondition.mk (status kettle1)
                                       (temperature kettle1))) ->
  status kettle1 = READY \/ status kettle1 = STOPPED ->
  poll_loop (t :: rest) ON kettle
  = (kettle1,
     [PrintTemperature (temperature kettle1);
      PrintStatusChanged (status kettle1)],
     Returned).
Proof.
  intros C S. cbn [poll_loop KettleStatus_eqb negb]. rewrite C.
  cbn [KettleCondition.status KettleCondition.temperature].
  destruct (interrupt t) as [now|].
  - rewrite switch_refused by assumption.
    destruct S as [-> | ->]; reflexivity.
  - destruct S as [-> | ->]; reflexivity.
Qed.

Lemma poll_loop_continue (t : tick) (rest : list tick)
  (kettle kettle1 : Kettle) :
  check_condition (polled t) kettle
  = (kettle1, inr (KettleCondition.mk (status kettle1)
                                       (temperature kettle1))) ->
  status kettle1 = ON ->
  poll_loop (t :: rest) ON kettle
  = let kettle2 :=
      match interrupt t with
      | None => kettle1
      | Some _ => set_status STOPPED kettle1
      end in
    let '(kettle3, out, end_) := poll_loop rest ON kettle2 in
    (kettle3, PrintTemperature (temperature kettle1) :: out, end_).
Proof.
  intros C S. cbn [poll_loop KettleStatus_eqb negb]. rewrite C.
  cbn [KettleCondition.status KettleCondition.temperature].
  destruct (interrupt t) as [now|].
  - rewrite switch_stops by assumption. rewrite S. reflexivity.
  - rewrite S. reflexivity.
Qed.

(** Polling keeps what the second loop relies on. *)
Lemma check_condition_keeps (self self' : Kettle) (now : Q)
  (r : exn + KettleCondition.t) :
  check_condition now self = (self', r) ->
  (started self -> started self')
  /\ boiling_time self' = boiling_time self
  /\ (status self <> OFF -> status self' <> OFF).
Proof.
  intros C.
  assert (A : self' = after (CheckCondition now) self)
    by now rewrite after_check_condition, C.
  repeat split.
  - intros S. rewrite A. now apply started_after.
  - rewrite A. apply after_keeps_config.
  - intros N. pose proof (check_condition_not_off self now N) as N'.
    now rewrite C in N'.
Qed.

Lemma poll_loop_raises_nothing (ticks : list tick) (s : KettleStatus)
  (kettle : Kettle) (err : exn) :
  started kettle -> ~ boiling_time kettle == 0 -> status kettle <> OFF ->
  snd (poll_loop ticks s kettle) <> Raised err.
Proof.
  revert s kettle.
  induction ticks as [|t rest IH]; intros s kettle S Z N.
  - destruct s; discriminate.
  - destruct s; try (rewrite poll_loop_left; discriminate).
    destruct (check_condition_returns kettle (polled t) S Z) as [k1 C].
    destruct (check_condition_keeps _ _ _ _ C) as (S1 & B1 & N1).
    destruct (status k1) eqn:E1; [|now elim N1| |]; rewrite <- E1 in C.
    + rewrite (poll_loop_continue t rest kettle k1 C E1). cbv zeta.
      specialize (IH ON (match interrupt t with
                         | Some _ => set_status STOPPED k1
                         | None => k1
                         end)).
      destruct (poll_loop rest ON _) as [[k3 out] r]. simpl in *.
      apply IH; destruct (interrupt t); simpl; auto; try congruence.
      intros D. discriminate D.
    + rewrite (poll_loop_break t rest kettle k1 C) by tauto. discriminate.
    + rewrite (poll_loop_break t rest kettle k1 C) by tauto. discriminate.
Qed.

Lemma poll_loop_returned (ticks : list tick) (s : KettleStatus)
  (kettle kettle' : Kettle) (out : list output) :
  status kettle <> OFF -> (s <> ON -> status kettle = s) ->
  poll_loop ticks s kettle = (kettle', out, Returned) ->
  status kettle' = READY \/ status kettle' = STOPPED.
Proof.
  revert s kettle out.
  induction ticks as [|t rest IH]; intros s kettle out N Q.
  - destruct s; simpl; try discriminate; intros [= <- _];
      specialize (Q ltac:(discriminate)); try tauto; congruence.
  - destruct s;
      try (rewrite poll_loop_left by discriminate; intros [= <- _];
           specialize (Q ltac:(discriminate)); try tauto; congruence).
    destruct (check_condition (polled t) kettle) as [k1 [e|c]] eqn:C.
    { cbn [poll_loop KettleStatus_eqb negb]. rewrite C. discriminate. }
    pose proof (check_condition_snapshot _ _ _ _ C) as ->.
    destruct (check_condition_keeps _ _ _ _ C) as (_ & _ & N1).
    destruct (status k1) eqn:E1; [|now elim N1| |].
    + rewrite <- E1 in C.
      rewrite (poll_loop_continue t rest kettle k1 C E1). cbv zeta.
      destruct (poll_loop rest ON _) as [[k3 o] r] eqn:P.
      intros [= <- _ ->].
      eapply IH; [| |exact P].
      * destruct (interrupt t); simpl; congruence.
      * intros D. now elim D.
    + rewrite <- E1 in C.
      rewrite (poll_loop_break t rest kettle k1 C) by tauto.
      intros [= <- _]. tauto.
    + rewrite <- E1 in C.
      rewrite (poll_loop_break t rest kettle k1 C) by tauto.
      intros [= <- _]. tauto.
Qed.

(** The kettle that leaves the first loop of [main]. *)
Lemma main_heating (config : Config) (attempts : list attempt)
  (kettle : Kettle) (out : list output) :
  fill_loop attempts (init config) = (kettle, out, true) ->
  status kettle = ON
  /\ started kettle
  /\ boiling_time kettle = BOILING_TIME_SECONDS config.
Proof.
  intros F.
  destruct (fill_loop_left attempts (init config) kettle out eq_refl F)
    as (a & v & _ & _ & _ & _ & _ & ->).
  repeat split. intros _. now exists (clock a).
Qed.

(** X14: when the configured boiling time is not zero, no exception
    leaves [main], whatever is entered, whatever the clock reads and
    whenever the sleep is interrupted.  The errors of [fill_in] and
    [switch] in the first loop are caught; [check_condition] raises
    nothing; and a [switch] refused in the handler of
    [KeyboardInterrupt] is discarded by the [break] of [finally]. *)
Theorem X14_main_raises_nothing (config : Config) (attempts : list attempt)
  (now : Q) (ticks : list tick) (err : exn) :
  ~ BOILING_TIME_SECONDS config == 0 ->
  snd (main config attempts now ticks) <> Raised err.
Proof.
  intros Z. unfold main.
  destruct (fill_loop attempts (init config)) as [[k out] [|]] eqn:F;
    [|discriminate].
  destruct (main_heating config attempts k out F) as (E & S & B).
  rewrite <- B in Z.
  destruct (check_condition_returns k now S Z) as [k1 C].
  destruct (check_condition_keeps _ _ _ _ C) as (S1 & B1 & N1).
  rewrite C. cbn [KettleCondition.status].
  pose proof (poll_loop_raises_nothing ticks (status k1) k1 err) as P.
  destruct (poll_loop ticks (status k1) k1) as [[k2 out2] r]. simpl in *.
  apply P; [now apply S1|now rewrite B1|apply N1; congruence].
Qed.

Lemma X14_main_raises_nothing_witness :
  snd (main config0
         [mkAttempt (Some 2) 0; mkAttempt (Some (1 # 2)) 10] 10
         [mkTick 40 None; mkTick 75 (Some 75)])
  <> Raised (KettleSwitchError "Pour out old water and fill in new.").
Proof.
  apply (X14_main_raises_nothing config0
           [mkAttempt (Some 2) 0; mkAttempt (Some (1 # 2)) 10] 10
           [mkTick 40 None; mkTick 75 (Some 75)]).
  vm_compute. discriminate.
Defined.

(** X15: when [main] returns, the kettle is [READY] or [STOPPED]: the
    second loop is left only once the water has boiled or the heating
    has been stopped. *)
Theorem X15_main_returns_ready_or_stopped (config : Config)
  (attempts : list attempt) (now : Q) (ticks : list tick)
  (kettle : Kettle) (out : list output) :
  main config attempts now ticks = (kettle, out, Returned) ->
  status kettle = READY \/ status kettle = STOPPED.
Proof.
  unfold main.
  destruct (fill_loop attempts (init config)) as [[k o] [|]] eqn:F;
    [|discriminate].
  destruct (main_heating config attempts k o F) as (E & _ & _).
  destruct (check_condition now k) as [k1 [e|c]] eqn:C; [discriminate|].
  pose proof (check_condition_snapshot _ _ _ _ C) as ->.
  destruct (check_condition_keeps _ _ _ _ C) as (_ & _ & N1).
  cbn [KettleCondition.status].
  destruct (poll_loop ticks (status k1) k1) as [[k2 o2] r] eqn:P.
  intros [= <- _ ->].
  apply (poll_loop_returned ticks (status k1) k1 k2 o2); auto.
  apply N1. congruence.
Qed.

Lemma X15_main_returns_ready_or_stopped_witness :
  status (fst (fst (main config0 [mkAttempt (Some (1 # 2)) 10] 10
                      [mkTick 40 (Some 41); mkTick 42 None]))) = READY
  \/ status (fst (fst (main config0 [mkAttempt (Some (1 # 2)) 10] 10
                         [mkTick 40 (Some 41); mkTick 42 None]))) = STOPPED.
Proof.
  apply (X15_main_returns_ready_or_stopped config0
           [mkAttempt (Some (1 # 2)) 10] 10
           [mkTick 40 (Some 41); mkTick 42 None] _
           (snd (fst (main config0 [mkAttempt (Some (1 # 2)) 10] 10
                        [mkTick 40 (Some 41); mkTick 42 None])))).
  reflexivity.
Defined.

(** X17: the pass of the second loop that polls a heating kettle once
    the boiling time has elapsed prints [max_temperature], then the
    change of status to [READY], and leaves the loop with the kettle
    [READY].  An interrupt during the sleep of that pass changes
    nothing: the error of its [switch] is discarded. *)
Theorem X17_boiling_leaves_the_loop (t : tick) (rest : list tick)
  (kettle : Kettle) (start : Q) :
  status kettle = ON -> start_time kettle = Some start ->
  boiling_time kettle <= polled t - start ->
  poll_loop (t :: rest) ON kettle
  = (set_status READY (set_temperature (max_temperature kettle) kettle),
     [PrintTemperature (max_temperature kettle); PrintStatusChanged READY],
     Returned).
Proof.
  intros E S L.
  pose proof (check_condition_boiled kettle start (polled t) E S L) as C.
  now rewrite (poll_loop_break t rest kettle _ C) by (left; reflexivity).
Qed.

Lemma X17_boiling_leaves_the_loop_witness :
  poll_loop (mkTick 61 (Some 62) :: []) ON heating0
  = (set_status READY (set_temperature (max_temperature heating0) heating0),
     [PrintTemperature (max_temperature heating0); PrintStatusChanged READY],
     Returned).
Proof.
  apply (X17_boiling_leaves_the_loop (mkTick 61 (Some 62)) [] heating0 0).
  - reflexivity.
  - reflexivity.
  - vm_compute. discriminate.
Defined.


(** * Properties over binary64 *)

Module Binary64Facts.

Import Binary64.
Local Open Scope float_scope.
Local Open Scope binary64_scope.

(** Decimal constants stand for the nearest binary64 value, as in
    Python. *)
#[local] Set Warnings "-inexact-float".

(** C6 (the code departs from the claim).  Claimed: [fill_in v] returns
    exactly when [0 <= v <= max_volume] and raises [KettleFillingError]
    otherwise.  [fill_in] refuses [v] by the tests [v < 0] and
    [v > max_volume], and both are false of NaN: on a new kettle
    [fill_in(nan)] returns and the volume stored is NaN, although
    neither [0 <= nan] nor [nan <= max_volume] holds.  The [switch] that
    follows starts the kettle, its test [volume < min_volume] being
    false as well. *)
Theorem C6_fill_in_stores_nan :
  let self := init config0 in
  (0 <=? nan) = false
  /\ (nan <=? max_volume self) = false
  /\ fill_in nan self = (set_volume nan self, inr tt)
  /\ volume (fst (fill_in nan self)) = nan
  /\ status (fst ((fill_in nan ;; switch 0) self)) = ON.
Proof. cbv zeta. repeat apply conj; reflexivity. Qed.

(** ** The methods, path by path *)

Lemma b64_fill_in_refused (self : Kettle) (v : float) :
  (v <? 0) = true \/ (max_volume self <? v) = true ->
  exists msg, fill_in v self = (self, inl (KettleFillingError msg)).
Proof.
  unfold_method. intros [T|T].
  - rewrite T. eauto.
  - destruct (v <? 0); rewrite ?T; eauto.
Qed.

Lemma b64_fill_in_stores (self : Kettle) (v : float) :
  (v <? 0) = false -> (max_volume self <? v) = false ->
  fill_in v self = (set_volume v self, inr tt).
Proof. intros T0 T. unfold_method. now rewrite T0, T. Qed.

Lemma b64_switch_starts (self : Kettle) (now : float) :
  status self = OFF -> (volume self <? min_volume self) = false ->
  switch now self = (set_status ON (set_start_time now self), inr tt).
Proof. intros E T. unfold_method. rewrite E. simpl. now rewrite T. Qed.

Lemma b64_switch_too_low (self : Kettle) (now : float) :
  status self = OFF -> (volume self <? min_volume self) = true ->
  switch now self
  = (self, inl (KettleSwitchError "Can't start kettle: water level too low.")).
Proof. intros E T. unfold_method. rewrite E. simpl. now rewrite T. Qed.

Lemma b64_switch_stops (self : Kettle) (now : float) :
  status self = ON ->
  switch now self = (set_status STOPPED self, inr tt).
Proof. intros E. unfold_method. now rewrite E. Qed.

Lemma b64_switch_refused (self : Kettle) (now : float) :
  status self = READY \/ status self = STOPPED ->
  switch now self
  = (self, inl (KettleSwitchError "Pour out old water and fill in new.")).
Proof. intros [E|E]; unfold_method; now rewrite E. Qed.

Lemma b64_check_condition_idle (self : Kettle) (now : float) :
  status self <> ON ->
  check_condition now self
  = (self, inr (KettleCondition.mk (status self) (temperature self))).
Proof.
  intros E. unfold_method.
  destruct (status self) eqn:S; [contradiction| | |]; simpl; now rewrite S.
Qed.

Lemma b64_check_condition_heating (self : Kettle) (start now : float) :
  status self = ON -> start_time self = Some start ->
  (boiling_time self <=? now - start) = false ->
  (boiling_time self =? 0) = false ->
  check_condition now self
  = (set_temperature
       ((max_temperature self - start_temperature self)
        * ((now - start) / boiling_time self)) self,
     inr (KettleCondition.mk ON
            ((max_temperature self - start_temperature self)
             * ((now - start) / boiling_time self)))).
Proof.
  intros E S L Z. unfold_method. rewrite E. simpl. rewrite S, L, Z. simpl.
  now rewrite E.
Qed.

Lemma b64_run_snoc (config : Config) (ops : list op) (o : op) :
  run config (ops ++ [o]) = after o (run config ops).
Proof. unfold run. now rewrite fold_left_app. Qed.

Lemma b64_reachable_run (config : Config) (ops : list op) :
  reachable config (run config ops).
Proof.
  induction ops as [|o ops IH] using rev_ind.
  - apply reachable_init.
  - rewrite b64_run_snoc. now apply reachable_call.
Qed.

(** ** Invariants and causes *)

Lemma b64_volume_after (o : op) (self : Kettle) :
  (volume self <? 0) = false ->
  (volume (after o self) <? 0) = false
  /\ max_volume (after o self) = max_volume self
  /\ ((max_volume self <? 0) = false ->
      (max_volume self <? volume self) = false ->
      (max_volume (after o self) <? volume (after o self)) = false).
Proof.
  intros T0. unfold after.
  destruct o; unfold_method; simpl; split_paths;
    repeat split; intros; simpl; try assumption; reflexivity.
Qed.

(** X1: in every state reached from [__init__] by calls of the four
    operations, the test [volume < 0] is false, and so is
    [volume > max_volume] when [MAX_VOLUME < 0] is false.  A volume that
    is a number is thus never below 0 nor above the maximum; the volume
    may be NaN, of which both tests are false. *)
Theorem X1_volume_within_capacity (config : Config) (self : Kettle) :
  reachable config self ->
  (volume self <? 0) = false
  /\ ((MAX_VOLUME config <? 0) = false ->
      (max_volume self <? volume self) = false).
Proof.
  intros R.
  assert (I : max_volume self = MAX_VOLUME config
              /\ (volume self <? 0) = false
              /\ ((MAX_VOLUME config <? 0) = false ->
                  (max_volume self <? volume self) = false)).
  { induction R as [|self o R (Em & T0 & T)].
    - simpl. repeat split. intros C. exact C.
    - destruct (b64_volume_after o self T0) as (T0' & Em' & T').
      repeat split; [congruence|assumption|].
      intros C. apply T'; [now rewrite Em|now apply T]. }
  tauto.
Qed.

Lemma X1_volume_within_capacity_witness :
  (volume (run config0 [FillIn nan; Switch 0; FillIn 0.75]) <? 0) = false
  /\ ((MAX_VOLUME config0 <? 0) = false ->
      (max_volume (run config0 [FillIn nan; Switch 0; FillIn 0.75])
       <? volume (run config0 [FillIn nan; Switch 0; FillIn 0.75])) = false).
Proof.
  apply (X1_volume_within_capacity config0
           (run config0 [FillIn nan; Switch 0; FillIn 0.75])).
  apply b64_reachable_run.
Defined.

(** X9: a call that turns the status to [ON] is a [switch] on a kettle
    that is [OFF] and of which the test [volume < min_volume] is false;
    it leaves the volume as it is and sets [start_time] to the reading
    of the clock.  A kettle whose volume is a number thus never starts
    below the minimal volume; one whose volume is NaN does start. *)
Theorem X9_starts_only_with_enough_water (o : op) (self : Kettle) :
  status self <> ON -> status (after o self) = ON ->
  exists now,
    o = Switch now
    /\ status self = OFF
    /\ (volume self <? min_volume self) = false
    /\ volume (after o self) = volume self
    /\ start_time (after o self) = Some now.
Proof.
  unfold after.
  destruct o; unfold_method; simpl; split_paths; intros;
    try congruence; try discriminate.
  eexists. now repeat split.
Qed.

Lemma X9_starts_only_with_enough_water_witness :
  exists now,
    Switch 5 = Switch now
    /\ status (after (FillIn 0.5) (init config0)) = OFF
    /\ (volume (after (FillIn 0.5) (init config0))
        <? min_volume (after (FillIn 0.5) (init config0))) = false
    /\ volume (after (Switch 5) (after (FillIn 0.5) (init config0)))
       = volume (after (FillIn 0.5) (init config0))
    /\ start_time (after (Switch 5) (after (FillIn 0.5) (init config0)))
       = Some now.
Proof.
  apply (X9_starts_only_with_enough_water
           (Switch 5) (after (FillIn 0.5) (init config0))).
  - vm_compute. discriminate.
  - reflexivity.
Defined.

(** X10: a call that turns the status to [READY] is a
    [check_condition] on a kettle that is [ON], at a reading of the
    clock for which the test [now - start_time >= boiling_time] holds of
    the rounded difference, and it leaves the temperature at
    [max_temperature]. *)
Theorem X10_ready_only_after_boiling_time (o : op) (self : Kettle) :
  status self <> READY -> status (after o self) = READY ->
  exists now start,
    o = CheckCondition now
    /\ status self = ON
    /\ start_time self = Some start
    /\ (boiling_time self <=? now - start) = true
    /\ temperature (after o self) = max_temperature self.
Proof.
  unfold after.
  destruct o; unfold_method; simpl; split_paths; intros;
    try congruence; try discriminate.
  do 2 eexists. now repeat split.
Qed.

Lemma X10_ready_only_after_boiling_time_witness :
  exists now start,
    CheckCondition 60.3 = CheckCondition now
    /\ status (run config0 [FillIn 0.5; Switch 0.3]) = ON
    /\ start_time (run config0 [FillIn 0.5; Switch 0.3]) = Some start
    /\ (boiling_time (run config0 [FillIn 0.5; Switch 0.3])
        <=? now - start) = true
    /\ temperature (after (CheckCondition 60.3)
                      (run config0 [FillIn 0.5; Switch 0.3]))
       = max_temperature (run config0 [FillIn 0.5; Switch 0.3]).
Proof.
  apply (X10_ready_only_after_boiling_time (CheckCondition 60.3)
           (run config0 [FillIn 0.5; Switch 0.3])).
  - vm_compute. discriminate.
  - reflexivity.
Defined.

(** ** The first loop of [main] *)

(** The body of the [try], on a kettle that is [OFF]. *)
Lemma b64_entry_outcome (kettle : Kettle) (v now : float) :
  status kettle = OFF ->
  (fill_in v ;; switch now) kettle
  = if v <? 0 then
      (kettle,
       inl (KettleFillingError "Water volume can't be negative."))
    else if max_volume kettle <? v then
      (kettle, inl (KettleFillingError "Max volume exeeded."))
    else if v <? min_volume kettle then
      (set_volume v kettle,
       inl (KettleSwitchError "Can't start kettle: water level too low."))
    else (set_status ON (set_start_time now (set_volume v kettle)), inr tt).
Proof.
  intros E. unfold_method.
  destruct (v <? 0); [reflexivity|].
  destruct (max_volume kettle <? v); [reflexivity|].
  simpl. rewrite E. simpl.
  destruct (v <? min_volume kettle); reflexivity.
Qed.

Lemma b64_set_volume_same (kettle : Kettle) :
  set_volume (volume kettle) kettle = kettle.
Proof. now destruct kettle. Qed.

(** A pass that refuses its entry. *)
Lemma b64_fill_loop_refuses (a : attempt) (rest : list attempt)
  (kettle : Kettle) :
  status kettle = OFF -> accepted kettle a = false ->
  exists w,
    fill_loop (a :: rest) kettle
    = let '(kettle', out, done) := fill_loop rest (set_volume w kettle) in
      (kettle', Prompt (max_volume kettle) :: refusal kettle a :: out, done).
Proof.
  intros E A. unfold accepted, refusal in *. simpl.
  destruct (entered a) as [v|].
  - rewrite (b64_entry_outcome kettle v (clock a) E).
    destruct (v <? 0).
    { exists (volume kettle). now rewrite b64_set_volume_same. }
    destruct (max_volume kettle <? v).
    { exists (volume kettle). now rewrite b64_set_volume_same. }
    destruct (v <? min_volume kettle); [|discriminate].
    now exists v.
  - exists (volume kettle). now rewrite b64_set_volume_same.
Qed.

(** A pass that accepts its entry. *)
Lemma b64_fill_loop_accepts (a : attempt) (rest : list attempt)
  (kettle : Kettle) (v : float) :
  status kettle = OFF -> entered a = Some v -> accepted kettle a = true ->
  fill_loop (a :: rest) kettle
  = (set_status ON (set_start_time (clock a) (set_volume v kettle)),
     [Prompt (max_volume kettle)], true).
Proof.
  intros E V A. unfold accepted in A. simpl. rewrite V in *.
  rewrite (b64_entry_outcome kettle v (clock a) E).
  destruct (v <? 0); [discriminate|].
  destruct (max_volume kettle <? v); [discriminate|].
  destruct (v <? min_volume kettle); [discriminate|reflexivity].
Qed.

(** The passes that refuse their entries, one after the other. *)
Lemma b64_fill_loop_refusals (bad rest : list attempt) (kettle : Kettle) :
  status kettle = OFF ->
  Forall (fun a => accepted kettle a = false) bad ->
  exists w,
    fill_loop (bad ++ rest) kettle
    = let '(kettle', out, done) := fill_loop rest (set_volume w kettle) in
      (kettle',
       flat_map (fun a => [Prompt (max_volume kettle); refusal kettle a]) bad
       ++ out,
       done).
Proof.
  intros E B. revert kettle E B.
  induction bad as [|a bad IH]; intros kettle E B.
  - exists (volume kettle). rewrite b64_set_volume_same. simpl.
    now destruct (fill_loop rest kettle) as [[k o] d].
  - inversion B as [|? ? A B']; subst.
    rewrite <- app_comm_cons.
    destruct (b64_fill_loop_refuses a (bad ++ rest) kettle E A) as [w ->].
    destruct (IH (set_volume w kettle) E B') as [w' ->].
    exists w'.
    change (set_volume w' (set_volume w kettle)) with (set_volume w' kettle).
    destruct (fill_loop rest (set_volume w' kettle)) as [[k o] d].
    reflexivity.
Qed.

(** X12: when the first loop of [main] is left, the kettle is heating
    the water of one of the entries: its status is [ON], its volume is
    a value entered, of which none of the tests [volume < 0],
    [volume > max_volume] and [volume < min_volume] holds, and
    [start_time] is the reading of the clock of that entry.  The value
    may be NaN. *)
Theorem X12_fill_loop_leaves_a_heating_kettle (attempts : list attempt)
  (kettle kettle' : Kettle) (out : list output) :
  status kettle = OFF ->
  fill_loop attempts kettle = (kettle', out, true) ->
  status kettle' = ON
  /\ (volume kettle' <? 0) = false
  /\ (max_volume kettle' <? volume kettle') = false
  /\ (volume kettle' <? min_volume kettle') = false
  /\ exists a, In a attempts
               /\ entered a = Some (volume kettle')
               /\ start_time kettle' = Some (clock a).
Proof.
  revert kettle out.
  induction attempts as [|a rest IH]; intros kettle out E; simpl;
    [discriminate|].
  destruct (entered a) as [v|] eqn:V.
  - rewrite (b64_entry_outcome kettle v (clock a) E).
    destruct (v <? 0) eqn:T0;
      [|destruct (max_volume kettle <? v) eqn:TM;
        [|destruct (v <? min_volume kettle) eqn:Tm]].
    + destruct (fill_loop rest kettle) as [[k' o] d] eqn:F.
      intros [= <- _ ->].
      destruct (IH kettle o E F) as (S & A & B & C & a' & I & V' & T).
      repeat split; try assumption. exists a'. auto.
    + destruct (fill_loop rest kettle) as [[k' o] d] eqn:F.
      intros [= <- _ ->].
      destruct (IH kettle o E F) as (S & A & B & C & a' & I & V' & T).
      repeat split; try assumption. exists a'. auto.
    + destruct (fill_loop rest (set_volume v kettle)) as [[k' o] d] eqn:F.
      intros [= <- _ ->].
      destruct (IH (set_volume v kettle) o E F)
        as (S & A & B & C & a' & I & V' & T).
      repeat split; try assumption. exists a'. auto.
    + intros [= <- _]. simpl. repeat split; try assumption.
      exists a. auto.
  - destruct (fill_loop rest kettle) as [[k' o] d] eqn:F.
    intros [= <- _ ->].
    destruct (IH kettle o E F) as (S & A & B & C & a' & I & V' & T).
    repeat split; try assumption. exists a'. auto.
Qed.

Lemma X12_fill_loop_leaves_a_heating_kettle_witness :
  status (fst (fst (fill_loop
            [mkAttempt None 0; mkAttempt (Some 2) 1;
             mkAttempt (Some 0.125) 2; mkAttempt (Some nan) 3]
            (init config0)))) = ON
  /\ exists a,
       In a [mkAttempt None 0; mkAttempt (Some 2) 1;
             mkAttempt (Some 0.125) 2; mkAttempt (Some nan) 3]
       /\ entered a = Some nan
       /\ clock a = 3.
Proof.
  destruct (X12_fill_loop_leaves_a_heating_kettle
              [mkAttempt None 0; mkAttempt (Some 2) 1;
               mkAttempt (Some 0.125) 2; mkAttempt (Some nan) 3]
              (init config0) _ _ eq_refl eq_refl)
    as (S & _ & _ & _ & a & I & V & T).
  split; [exact S|].
  exists a. repeat split; [exact I|exact V|].
  simpl in T. congruence.
Defined.

(** X13: the first loop of [main] is left at the first entry that is a
    float of which none of the tests [v < 0], [v > max_volume] and
    [v < min_volume] holds.  The kettle then is the one [main] began
    with, but for that volume, the status [ON] and the [start_time]:
    the entries refused before leave nothing behind.  What is written
    is, for each entry refused, the prompt and the message of the test
    that refused it, and then the prompt of the entry accepted. *)
Theorem X13_fill_loop_stops_at_first_accepted (bad rest : list attempt)
  (good : attempt) (v : float) (kettle : Kettle) :
  status kettle = OFF ->
  Forall (fun a => accepted kettle a = false) bad ->
  entered good = Some v -> accepted kettle good = true ->
  fill_loop (bad ++ good :: rest) kettle
  = (set_status ON (set_start_time (clock good) (set_volume v kettle)),
     flat_map (fun a => [Prompt (max_volume kettle); refusal kettle a]) bad
     ++ [Prompt (max_volume kettle)],
     true).
Proof.
  intros E B V A.
  destruct (b64_fill_loop_refusals bad (good :: rest) kettle E B) as [w ->].
  now rewrite (b64_fill_loop_accepts good rest (set_volume w kettle) v).
Qed.

Lemma X13_fill_loop_stops_at_first_accepted_witness :
  fill_loop ([mkAttempt None 0; mkAttempt (Some (-1)) 1;
              mkAttempt (Some 2) 2; mkAttempt (Some 0.125) 3]
             ++ mkAttempt (Some 0.5) 4 :: [mkAttempt (Some 1) 5])
    (init config0)
  = (set_status ON (set_start_time 4 (set_volume 0.5 (init config0))),
     [Prompt 1; PrintInputError;
      Prompt 1;
      PrintError (KettleFillingError "Water volume can't be negative.");
      Prompt 1; PrintError (KettleFillingError "Max volume exeeded.");
      Prompt 1;
      PrintError
        (KettleSwitchError "Can't start kettle: water level too low.");
      Prompt 1],
     true).
Proof.
  apply (X13_fill_loop_stops_at_first_accepted
           [mkAttempt None 0; mkAttempt (Some (-1)) 1;
            mkAttempt (Some 2) 2; mkAttempt (Some 0.125) 3]
           [mkAttempt (Some 1) 5] (mkAttempt (Some 0.5) 4) 0.5
           (init config0)).
  - reflexivity.
  - repeat constructor.
  - reflexivity.
  - reflexivity.
Defined.

(** X18: as long as every entry fails to be a float, or is one of which
    one of the tests [v < 0], [v > max_volume] and [v < min_volume]
    holds, the first loop of [main] goes on asking: each entry is
    answered by the message of the test that refused it and a new
    prompt, and the kettle stays [OFF], never started, at its
    temperature. *)
Theorem X18_fill_loop_keeps_asking (attempts : list attempt)
  (kettle : Kettle) :
  status kettle = OFF ->
  Forall (fun a => accepted kettle a = false) attempts ->
  exists kettle',
    fill_loop attempts kettle
    = (kettle',
       flat_map (fun a => [Prompt (max_volume kettle); refusal kettle a])
         attempts
       ++ [Prompt (max_volume kettle)],
       false)
    /\ status kettle' = OFF
    /\ start_time kettle' = start_time kettle
    /\ temperature kettle' = temperature kettle.
Proof.
  intros E B.
  destruct (b64_fill_loop_refusals attempts [] kettle E B) as [w F].
  rewrite app_nil_r in F. rewrite F. simpl.
  exists (set_volume w kettle). now repeat split.
Qed.

Lemma X18_fill_loop_keeps_asking_witness :
  exists kettle',
    fill_loop [mkAttempt None 0; mkAttempt (Some 0.125) 1] (init config0)
    = (kettle',
       flat_map (fun a => [Prompt (max_volume (init config0));
                           refusal (init config0) a])
         [mkAttempt None 0; mkAttempt (Some 0.125) 1]
       ++ [Prompt (max_volume (init config0))],
       false)
    /\ status kettle' = OFF
    /\ start_time kettle' = start_time (init config0)
    /\ temperature kettle' = temperature (init config0).
Proof.
  apply (X18_fill_loop_keeps_asking
           [mkAttempt None 0; mkAttempt (Some 0.125) 1] (init config0)).
  - reflexivity.
  - repeat constructor.
Defined.

(** ** The second loop of [main] *)

Lemma b64_poll_loop_break (t : tick) (rest : list tick)
  (kettle kettle1 : Kettle) :
  check_condition (polled t) kettle
  = (kettle1, inr (KettleCondition.mk (status kettle1)
                                       (temperature kettle1))) ->
  status kettle1 = READY \/ status kettle1 = STOPPED ->
  poll_loop (t :: rest) ON kettle
  = (kettle1,
     [PrintTemperature (temperature kettle1);
      PrintStatusChanged (status kettle1)],
     Returned).
Proof.
  intros C S. cbn [poll_loop KettleStatus_eqb negb]. rewrite C.
  cbn [KettleCondition.status KettleCondition.temperature].
  destruct (interrupt t) as [now|].
  - rewrite b64_switch_refused by assumption.
    destruct S as [-> | ->]; reflexivity.
  - destruct S as [-> | ->]; reflexivity.
Qed.

Lemma b64_poll_loop_continue (t : tick) (rest : list tick)
  (kettle kettle1 : Kettle) :
  check_condition (polled t) kettle
  = (kettle1, inr (KettleCondition.mk (status kettle1)
                                       (temperature kettle1))) ->
  status kettle1 = ON ->
  poll_loop (t :: rest) ON kettle
  = let kettle2 :=
      match interrupt t with
      | None => kettle1
      | Some _ => set_status STOPPED kettle1
      end in
    let '(kettle3, out, end_) := poll_loop rest ON kettle2 in
    (kettle3, PrintTemperature (temperature kettle1) :: out, end_).
Proof.
  intros C S. cbn [poll_loop KettleStatus_eqb negb]. rewrite C.
  cbn [KettleCondition.status KettleCondition.temperature].
  destruct (interrupt t) as [now|].
  - rewrite b64_switch_stops by assumption. rewrite S. reflexivity.
  - rewrite S. reflexivity.
Qed.

(** X16: an interrupt while the kettle is heating stops it, and the
    second loop is left one pass later.  The pass interrupted, in which
    the test [now - start_time >= boiling_time] is false of the rounded
    difference, prints the temperature computed, in binary64, and
    switches the kettle to [STOPPED]; the next pass prints the same
    temperature again, then the change of status, and leaves the loop,
    whether or not it is interrupted too. *)
Theorem X16_interrupt_stops_one_pass_later (t t' : tick) (rest : list tick)
  (kettle : Kettle) (start now : float) :
  status kettle = ON -> start_time kettle = Some start ->
  (boiling_time kettle <=? polled t - start) = false ->
  (boiling_time kettle =? 0) = false ->
  interrupt t = Some now ->
  poll_loop (t :: t' :: rest) ON kettle
  = (set_status STOPPED
       (set_temperature
          ((max_temperature kettle - start_temperature kettle)
           * ((polled t - start) / boiling_time kettle)) kettle),
     [PrintTemperature
        ((max_temperature kettle - start_temperature kettle)
         * ((polled t - start) / boiling_time kettle));
      PrintTemperature
        ((max_temperature kettle - start_temperature kettle)
         * ((polled t - start) / boiling_time kettle));
      PrintStatusChanged STOPPED],
     Returned).
Proof.
  intros E S L Z I.
  pose proof (b64_check_condition_heating kettle start (polled t) E S L Z)
    as C.
  set (T := (max_temperature kettle - start_temperature kettle)
            * ((polled t - start) / boiling_time kettle)) in *.
  assert (C' : check_condition (polled t) kettle
               = (set_temperature T kettle,
                  inr (KettleCondition.mk
                         (status (set_temperature T kettle))
                         (temperature (set_temperature T kettle))))).
  { rewrite C. simpl. now rewrite E. }
  rewrite (b64_poll_loop_continue t (t' :: rest) kettle _ C' E).
  rewrite I. cbv zeta.
  assert (D : status (set_status STOPPED (set_temperature T kettle)) <> ON)
    by (simpl; discriminate).
  rewrite (b64_poll_loop_break t' rest _ _
             (b64_check_condition_idle _ (polled t') D))
    by (right; reflexivity).
  reflexivity.
Qed.

Lemma X16_interrupt_stops_one_pass_later_witness :
  poll_loop (mkTick 20.3 (Some 20.5) :: mkTick 21.3 None :: []) ON
    (run config0 [FillIn 0.5; Switch 0.3])
  = (set_status STOPPED
       (set_temperature
          ((100 - 20) * ((20.3 - 0.3) / 60))
          (run config0 [FillIn 0.5; Switch 0.3])),
     [PrintTemperature ((100 - 20) * ((20.3 - 0.3) / 60));
      PrintTemperature ((100 - 20) * ((20.3 - 0.3) / 60));
      PrintStatusChanged STOPPED],
     Returned).
Proof.
  apply (X16_interrupt_stops_one_pass_later
           (mkTick 20.3 (Some 20.5)) (mkTick 21.3 None) []
           (run config0 [FillIn 0.5; Switch 0.3]) 0.3 20.5).
  - reflexivity.
  - reflexivity.
  - reflexivity.
  - reflexivity.
  - reflexivity.
Defined.

End Binary64Facts.
